(** * secfetch: Fetch-Metadata request gate

    A shallow embedding of package [secfetch] (src/secfetch.go): the decision
    predicate [allowed] and the two middleware constructors [ProtectHandler]
    and [ProtectHandlerLogOnly], together with the small part of Go's
    [net/http] they rely on (header lookup, the response writer interface and
    the recorder used by the package's tests). *)

From Stdlib Require Import ZArith Ascii String.
From stdpp Require Import gmap strings list.

(** ** Bytes and header-key canonicalisation (net/textproto) *)

Module textproto.

Definition is_lower (c : ascii) : bool :=
  let n := nat_of_ascii c in Nat.leb 97 n && Nat.leb n 122.

Definition is_upper (c : ascii) : bool :=
  let n := nat_of_ascii c in Nat.leb 65 n && Nat.leb n 90.

Definition is_digit (c : ascii) : bool :=
  let n := nat_of_ascii c in Nat.leb 48 n && Nat.leb n 57.

(** [c -= 'a' - 'A'] on a lower-case letter. *)
Definition to_upper (c : ascii) : ascii :=
  if is_lower c then ascii_of_nat (nat_of_ascii c - 32) else c.

(** [c += 'a' - 'A'] on an upper-case letter. *)
Definition to_lower (c : ascii) : ascii :=
  if is_upper c then ascii_of_nat (nat_of_ascii c + 32) else c.

(** The token bytes of RFC 7230, as in Go's [isTokenTable]. *)
Definition validHeaderFieldByte (c : ascii) : bool :=
  is_lower c || is_upper c || is_digit c ||
  existsb (Ascii.eqb c)
    ["!"; "#"; "$"; "%"; "&"; "'"; "*"; "+"; "-"; "."; "^"; "_"; "`"; "|"; "~"]%char.

Fixpoint all_valid (s : string) : bool :=
  match s with
  | EmptyString => true
  | String c s' => validHeaderFieldByte c && all_valid s'
  end.

(** The loop of [canonicalMIMEHeaderKey]: [upper] says whether the next
    letter starts a word (first byte, or the byte after a dash). *)
Fixpoint canonical_from (upper : bool) (s : string) : string :=
  match s with
  | EmptyString => EmptyString
  | String c s' =>
      let c' := if upper then to_upper c else to_lower c in
      String c' (canonical_from (Ascii.eqb c' "-") s')
  end.

(** [CanonicalMIMEHeaderKey]: a key holding a byte that is not a token
    byte is returned unchanged. *)
Definition CanonicalMIMEHeaderKey (s : string) : string :=
  if all_valid s then canonical_from true s else s.

End textproto.

(** ** Requests and headers (net/http) *)

(** [http.Header] is [map[string][]string]. *)
Abbreviation HeaderMap := (gmap string (list string)).

Module Header.

(** [Header.Get]: the first value stored under the canonical form of
    [key], the empty string when there is none. *)
Definition Get (h : HeaderMap) (key : string) : string :=
  match h !! textproto.CanonicalMIMEHeaderKey key with
  | Some (v :: _) => v
  | _ => ""
  end.

(** [Header.Set]: replaces the values under the canonical form of [key]. *)
Definition Set_ (h : HeaderMap) (key value : string) : HeaderMap :=
  <[textproto.CanonicalMIMEHeaderKey key := [value]]> h.

End Header.

(** The fields of [http.Request] a handler can look at. *)
Record Request : Type := mkRequest {
  Method : string;
  URL : string;
  Host : string;
  Header_ : HeaderMap;
  Body : string;
}.

(** [httptest.NewRequest(method, target, body)]; an empty method is GET. *)
Definition NewRequest (method target body : string) : Request :=
  {| Method := if String.eqb method "" then "GET" else method;
     URL := target; Host := "example.com"; Header_ := ∅; Body := body |}.

Definition with_header (r : Request) (key value : string) : Request :=
  {| Method := Method r; URL := URL r; Host := Host r;
     Header_ := Header.Set_ (Header_ r) key value; Body := Body r |}.

(** ** The decision predicate *)

(** The policy on the three strings [allowed] reads. *)
Definition decision (site mode method : string) : bool :=
  if String.eqb site "" ||
     String.eqb site "none" ||
     String.eqb site "same-site" ||
     String.eqb site "same-origin"
  then true
  else if String.eqb mode "navigate" && String.eqb method "GET"
  then true
  else false.

Definition site_of (r : Request) : string := Header.Get (Header_ r) "sec-fetch-site".
Definition mode_of (r : Request) : string := Header.Get (Header_ r) "sec-fetch-mode".

(** [func allowed(r *http.Request) bool]. *)
Definition allowed (r : Request) : bool :=
  let site := Header.Get (Header_ r) "sec-fetch-site" in
  let mode := Header.Get (Header_ r) "sec-fetch-mode" in
  if String.eqb site "" ||
     String.eqb site "none" ||
     String.eqb site "same-site" ||
     String.eqb site "same-origin"
  then true
  else if String.eqb mode "navigate" && String.eqb (Method r) "GET"
  then true
  else false.

(** A request built the way the package's tests build theirs. *)
Definition test_request (site mode method : string) : Request :=
  with_header
    (with_header
       (NewRequest method "/" (if String.eqb method "POST" then "body" else ""))
       "sec-fetch-site" site)
    "sec-fetch-mode" mode.

(** The rows of [checkTests] in the package's test file:
    name, site, mode, method and the outcome the row expects. *)
Record checkTest : Type := mkCheckTest {
  tt_name : string; tt_site : string; tt_mode : string; tt_method : string;
  tt_want : bool;
}.

Definition checkTests : list checkTest :=
  [ mkCheckTest "no headers" "" "" "POST" true;
    mkCheckTest "ua initiated" "none" "" "GET" true;
    mkCheckTest "cors bug missing mode" "cross-site" "" "OPTIONS" true;
    mkCheckTest "same site" "same-site" "websocket" "HEAD" true;
    mkCheckTest "same origin" "same-origin" "unrecognized" "POST" true;
    mkCheckTest "cross origin nested navigate" "cross-site" "nested-navigate" "GET" true;
    mkCheckTest "cross origin head navigate" "cross-site" "navigate" "HEAD" true;
    mkCheckTest "cross origin navigate" "cross-site" "navigate" "GET" true;
    mkCheckTest "cross origin form submission" "cross-site" "navigate" "POST" false;
    mkCheckTest "cross origin no cors" "cross-site" "no-cors" "GET" false;
    mkCheckTest "cross origin cors" "cross-site" "cors" "POST" false ].

(** Case folding of a whole string, to speak of values that differ in
    letter case only. *)
Fixpoint lower_string (s : string) : string :=
  match s with
  | EmptyString => EmptyString
  | String c s' => String (textproto.to_lower c) (lower_string s')
  end.

(** ** Response writers *)

Definition StatusOK : Z := 200.
Definition StatusForbidden : Z := 403.

Definition newline : string := String (ascii_of_nat 10) EmptyString.

(** The two methods of [http.ResponseWriter] the package calls. A writer
    is a value threaded through the handlers: each call returns the
    writer as the call leaves it. *)
Class ResponseWriter (W : Type) : Type := {
  WriteHeader : Z -> W -> W;
  Write : string -> W -> W;
}.

(** [fmt.Fprintln(w, s)]: one [Write] of [s] followed by a newline. *)
Definition Fprintln {W} `{ResponseWriter W} (w : W) (s : string) : W :=
  Write (s +:+ newline) w.

(** [fmt.Fprintf(w, s)] with a format that holds no verb. *)
Definition Fprintf {W} `{ResponseWriter W} (w : W) (s : string) : W :=
  Write s w.

(** [httptest.ResponseRecorder], the writer of the package's tests: the
    first status written wins, and a [Write] before any status records 200. *)
Record ResponseRecorder : Type := mkRecorder {
  Code : Z;
  HeaderMap_ : HeaderMap;
  RecBody : string;
  wroteHeader : bool;
}.

Definition NewRecorder : ResponseRecorder :=
  {| Code := StatusOK; HeaderMap_ := ∅; RecBody := ""; wroteHeader := false |}.

Definition Recorder_WriteHeader (code : Z) (rw : ResponseRecorder) : ResponseRecorder :=
  if wroteHeader rw then rw
  else {| Code := code; HeaderMap_ := HeaderMap_ rw; RecBody := RecBody rw;
          wroteHeader := true |}.

Definition Recorder_Write (buf : string) (rw : ResponseRecorder) : ResponseRecorder :=
  let rw := Recorder_WriteHeader StatusOK rw in
  {| Code := Code rw; HeaderMap_ := HeaderMap_ rw; RecBody := RecBody rw +:+ buf;
     wroteHeader := wroteHeader rw |}.

#[export] Instance Recorder_ResponseWriter : ResponseWriter ResponseRecorder :=
  {| WriteHeader := Recorder_WriteHeader; Write := Recorder_Write |}.

(** ** Handlers, loggers and the two wrappers *)

(** A call a wrapper makes to one of its collaborators. *)
Inductive Call : Type :=
| CallServeHTTP (r : Request)
| CallLogRequest (r : Request).

Definition is_log (c : Call) : bool :=
  match c with CallLogRequest _ => true | CallServeHTTP _ => false end.

Definition is_serve (c : Call) : bool :=
  match c with CallServeHTTP _ => true | CallLogRequest _ => false end.

Definition count_calls (p : Call -> bool) (t : list Call) : nat :=
  length (List.filter p t).

Section Middleware.

Context {W : Type} `{ResponseWriter W}.

(** [http.Handler]: [ServeHTTP(w, r)] may write to [w] and may change
    whatever else the handler can reach, the environment [E]. The request
    is passed as a value: a collaborator reads it and does not change it. *)
Record Handler (E : Type) : Type := HandlerFunc {
  ServeHTTP : W -> Request -> E -> W * E;
}.

(** [RequestLogger]: [LogRequest(r)] is given the request only. *)
Record RequestLogger (E : Type) : Type := mkRequestLogger {
  LogRequest : Request -> E -> E;
}.

Global Arguments HandlerFunc {E} _.
Global Arguments ServeHTTP {E} _ _ _ _.
Global Arguments mkRequestLogger {E} _.
Global Arguments LogRequest {E} _ _ _.

(** [func ProtectHandler(h http.Handler) http.Handler]. *)
Definition ProtectHandler {E} (h : Handler E) : Handler E :=
  HandlerFunc (fun w r e =>
    if negb (allowed r) then
      let w := WriteHeader StatusForbidden w in
      let w := Fprintln w "Invalid resource access" in
      (w, e)
    else
      ServeHTTP h w r e).

(** [func ProtectHandlerLogOnly(h http.Handler, rl RequestLogger) http.Handler]. *)
Definition ProtectHandlerLogOnly {E} (h : Handler E) (rl : RequestLogger E)
  : Handler E :=
  HandlerFunc (fun w r e =>
    let e := if negb (allowed r) then LogRequest rl r e else e in
    ServeHTTP h w r e).

(** What the enforcing wrapper leaves in the writer when it rejects. *)
Definition denial (w : W) : W :=
  Write ("Invalid resource access" +:+ newline) (WriteHeader StatusForbidden w).

(** Collaborators that keep a record of the calls made to them, next to
    what they do on their own environment: the record grows by one entry
    per call and is read by nobody. *)
Definition traced_handler {E} (h : Handler E) : Handler (E * list Call) :=
  HandlerFunc (fun w r et =>
    let '(w', e') := ServeHTTP h w r (fst et) in
    (w', (e', snd et ++ [CallServeHTTP r]))).

Definition traced_logger {E} (rl : RequestLogger E) : RequestLogger (E * list Call) :=
  mkRequestLogger (fun r et =>
    (LogRequest rl r (fst et), snd et ++ [CallLogRequest r])).

(** A handler and a logger that share nothing: the handler works on the
    first component of the environment, the logger on the second. *)
Definition handler_on_fst {E1 E2} (h : Handler E1) : Handler (E1 * E2) :=
  HandlerFunc (fun w r e =>
    let '(w', e1) := ServeHTTP h w r (fst e) in (w', (e1, snd e))).

Definition logger_on_snd {E1 E2} (rl : RequestLogger E2) : RequestLogger (E1 * E2) :=
  mkRequestLogger (fun r e => (fst e, LogRequest rl r (snd e))).

End Middleware.

(** The handler and the logger of the package's tests. *)
Definition data_handler {W} `{ResponseWriter W} {E} : Handler E :=
  HandlerFunc (fun w _ e => (Fprintf w "User Data", e)).

Definition testRequestLogger : RequestLogger (list Request) :=
  mkRequestLogger (fun r rs => rs ++ [r]).

(** What [allowed] answers on a row of the test table. *)
Definition row_outcome (t : checkTest) : bool :=
  allowed (test_request (tt_site t) (tt_mode t) (tt_method t)).

(** A header is absent when no value is stored under its canonical key
    ([len(v) == 0] in [Header.Get]). *)
Definition header_absent (h : HeaderMap) (key : string) : Prop :=
  default [] (h !! textproto.CanonicalMIMEHeaderKey key) = [].

(** [s] is [t] up to the case of its letters, and is not [t]. *)
Definition differs_only_in_case (s t : string) : Prop :=
  s <> t /\ lower_string s = lower_string t.

(** ** The package's tests *)

(** [bytes.Contains(b, sub)]: [sub] occurs in [b] at some offset. *)
Fixpoint Contains (b sub : string) : bool :=
  String.prefix sub b ||
  match b with
  | EmptyString => false
  | String _ b' => Contains b' sub
  end.

(** [const data = "User Data"]. *)
Definition data : string := "User Data".

(** What a subtest reports through [t.Errorf]. *)
Inductive Failure : Type :=
| Leaked
| StatusSet
| BodyChanged
| Verdict (got want : bool).

(** [if got != tt.want { t.Errorf(...) }]. *)
Definition verdict (got want : bool) : list Failure :=
  if Bool.eqb got want then [] else [Verdict got want].

(** The request of a subtest. [httptest.NewRequest] panics on a method
    that is not a token; [None] stands for the panic. *)
Definition subtest_request (t : checkTest) : option Request :=
  if textproto.all_valid (tt_method t)
  then Some (test_request (tt_site t) (tt_mode t) (tt_method t))
  else None.

(** The body of the subtest of [TestProtectHandler]. *)
Definition ProtectHandler_subtest (t : checkTest) : option (list Failure) :=
  match subtest_request t with
  | None => None
  | Some r =>
      let w := fst (ServeHTTP (ProtectHandler data_handler) NewRecorder r tt) in
      Some ((if negb (Z.eqb (Code w) 200) && Contains (RecBody w) data
             then [Leaked] else []) ++
            verdict (Z.eqb (Code w) 200) (tt_want t))
  end.

(** [TestProtectHandler], over a table of rows: the failures of each
    subtest under its name. *)
Fixpoint TestProtectHandler (tests : list checkTest)
  : option (list (string * list Failure)) :=
  match tests with
  | [] => Some []
  | t :: ts =>
      match ProtectHandler_subtest t with
      | None => None
      | Some fs =>
          match TestProtectHandler ts with
          | None => None
          | Some rest => Some ((tt_name t, fs) :: rest)
          end
      end
  end.

(** [func (t *testRequestLogger) reset()]. *)
Definition reset (rs : list Request) : list Request := [].

(** The body of the subtest of [TestProtectHandlerLogOnly], run with the
    logger holding [rs]; the deferred [reset] gives the logger it leaves. *)
Definition LogOnly_subtest (t : checkTest) (rs : list Request)
  : option (list Failure * list Request) :=
  match subtest_request t with
  | None => None
  | Some r =>
      let out := ServeHTTP (ProtectHandlerLogOnly (handler_on_fst data_handler)
                              (logger_on_snd testRequestLogger))
                   NewRecorder r (tt, rs) in
      let w := fst out in
      let rs' := snd (snd out) in
      Some ((if negb (Z.eqb (Code w) 200) then [StatusSet] else []) ++
            (if negb (Contains (RecBody w) data) then [BodyChanged] else []) ++
            verdict (Nat.eqb (length rs') 0) (tt_want t),
            reset rs')
  end.

Fixpoint LogOnly_subtests (tests : list checkTest) (rs : list Request)
  : option (list (string * list Failure) * list Request) :=
  match tests with
  | [] => Some ([], rs)
  | t :: ts =>
      match LogOnly_subtest t rs with
      | None => None
      | Some (fs, rs1) =>
          match LogOnly_subtests ts rs1 with
          | None => None
          | Some (rest, rs2) => Some ((tt_name t, fs) :: rest, rs2)
          end
      end
  end.

(** [TestProtectHandlerLogOnly]: the logger starts as [var tl
    testRequestLogger], with no request held. *)
Definition TestProtectHandlerLogOnly (tests : list checkTest)
  : option (list (string * list Failure) * list Request) :=
  LogOnly_subtests tests [].

(** The method a row's request carries: [NewRequest] reads "" as GET. *)
Definition row_method (t : checkTest) : string :=
  if String.eqb (tt_method t) "" then "GET" else tt_method t.

(** * Properties of the decision predicate *)

Example canon_site : textproto.CanonicalMIMEHeaderKey "sec-fetch-site" = "Sec-Fetch-Site".
Proof. reflexivity. Qed.

Example canon_mode : textproto.CanonicalMIMEHeaderKey "sec-fetch-mode" = "Sec-Fetch-Mode".
Proof. reflexivity. Qed.

Example canon_mixed : textproto.CanonicalMIMEHeaderKey "SEC-fetch-SITE" = "Sec-Fetch-Site".
Proof. reflexivity. Qed.

Example canon_invalid : textproto.CanonicalMIMEHeaderKey "sec fetch" = "sec fetch".
Proof. reflexivity. Qed.

Lemma allowed_decision (r : Request) :
  allowed r = decision (site_of r) (mode_of r) (Method r).
Proof. reflexivity. Qed.

Lemma Get_Set_eq (h : HeaderMap) (key v : string) :
  Header.Get (Header.Set_ h key v) key = v.
Proof. unfold Header.Get, Header.Set_. by rewrite lookup_insert_eq. Qed.

Lemma Get_absent (h : HeaderMap) (key : string) :
  header_absent h key -> Header.Get h key = "".
Proof.
  unfold header_absent, Header.Get.
  destruct (h !! textproto.CanonicalMIMEHeaderKey key) as [[|v vs]|]; simpl;
    congruence.
Qed.

(** The first rule: a permissive site value settles the decision. *)
Lemma decision_permissive (site mode method : string) :
  site = "" \/ site = "none" \/ site = "same-site" \/ site = "same-origin" ->
  decision site mode method = true.
Proof.
  intros [-> | [-> | [-> | ->]]]; reflexivity.
Qed.

(** Past the first rule the decision is the navigate-GET test. *)
Lemma decision_cross (site mode method : string) :
  site <> "" -> site <> "none" -> site <> "same-site" -> site <> "same-origin" ->
  decision site mode method = String.eqb mode "navigate" && String.eqb method "GET".
Proof.
  intros H1 H2 H3 H4. unfold decision.
  apply String.eqb_neq in H1, H2, H3, H4. rewrite H1, H2, H3, H4. simpl.
  by destruct (String.eqb mode "navigate" && String.eqb method "GET").
Qed.

(** C1: a request whose site value is none of the four permissive ones and
    that is not a navigate GET is denied; in particular any mode other than
    "navigate", an unrecognised one or a missing header, is denied there. *)
Theorem allowed_deny_other (r : Request) :
  site_of r <> "" -> site_of r <> "none" ->
  site_of r <> "same-site" -> site_of r <> "same-origin" ->
  (~ (mode_of r = "navigate" /\ Method r = "GET") -> allowed r = false) /\
  (mode_of r <> "navigate" -> allowed r = false) /\
  (header_absent (Header_ r) "sec-fetch-mode" -> allowed r = false).
Proof.
  intros H1 H2 H3 H4.
  assert (Hd : ~ (mode_of r = "navigate" /\ Method r = "GET") -> allowed r = false).
  { intros Hn. rewrite allowed_decision, decision_cross by assumption.
    destruct (String.eqb_spec (mode_of r) "navigate") as [Hm|Hm]; [|reflexivity].
    destruct (String.eqb_spec (Method r) "GET") as [Hg|Hg]; [|reflexivity].
    exfalso. apply Hn. by split. }
  split; [exact Hd|]. split.
  - intros Hm. apply Hd. intros [Hm' _]. by apply Hm.
  - intros Ha. apply Hd. intros [Hm' _].
    unfold mode_of in Hm'. rewrite (Get_absent _ _ Ha) in Hm'. discriminate.
Qed.

Lemma allowed_deny_other_witness :
  allowed (test_request "cross-site" "cors" "POST") = false /\
  allowed (test_request "cross-site" "unrecognized" "GET") = false /\
  allowed (with_header (NewRequest "GET" "/" "") "sec-fetch-site" "cross-site") = false.
Proof.
  split; [|split].
  - refine (proj1 (allowed_deny_other
                     (test_request "cross-site" "cors" "POST") _ _ _ _) _);
      vm_compute; try discriminate. intros [Hm _]. discriminate.
  - refine (proj1 (proj2 (allowed_deny_other
                     (test_request "cross-site" "unrecognized" "GET") _ _ _ _)) _);
      vm_compute; discriminate.
  - refine (proj2 (proj2 (allowed_deny_other
                     (with_header (NewRequest "GET" "/" "") "sec-fetch-site" "cross-site")
                     _ _ _ _)) _);
      vm_compute; try discriminate. reflexivity.
Defined.

(** C2: a request whose site value is empty, "none", "same-site" or
    "same-origin" is allowed, whatever its mode and method. *)
Theorem allowed_permissive_site (r : Request) :
  site_of r = "" \/ site_of r = "none" \/
  site_of r = "same-site" \/ site_of r = "same-origin" ->
  allowed r = true.
Proof.
  intros Hs. rewrite allowed_decision. by apply decision_permissive.
Qed.

Lemma allowed_permissive_site_witness :
  allowed (test_request "same-site" "websocket" "HEAD") = true.
Proof.
  apply allowed_permissive_site. right. right. left. vm_compute. reflexivity.
Defined.

(** C3: with any other site value, a request whose mode is exactly
    "navigate" and whose method is exactly "GET" is allowed. *)
Theorem allowed_navigate_get (r : Request) :
  site_of r <> "" -> site_of r <> "none" ->
  site_of r <> "same-site" -> site_of r <> "same-origin" ->
  mode_of r = "navigate" -> Method r = "GET" ->
  allowed r = true.
Proof.
  intros H1 H2 H3 H4 Hm Hg.
  rewrite allowed_decision, decision_cross by assumption.
  by rewrite Hm, Hg.
Qed.

Lemma allowed_navigate_get_witness :
  allowed (test_request "cross-site" "navigate" "GET") = true.
Proof.
  apply allowed_navigate_get; vm_compute; (reflexivity || discriminate).
Defined.

(** C6: a cross-site navigate request with method HEAD is denied; of the
    navigate requests only those with method exactly GET pass. *)
Theorem allowed_head_navigate_denied (r : Request) :
  site_of r = "cross-site" -> mode_of r = "navigate" ->
  (Method r = "HEAD" -> allowed r = false) /\
  (allowed r = true <-> Method r = "GET").
Proof.
  intros Hs Hm.
  assert (He : allowed r = String.eqb (Method r) "GET").
  { rewrite allowed_decision, decision_cross by (rewrite Hs; discriminate).
    by rewrite Hm. }
  split.
  - intros Hh. rewrite He, Hh. reflexivity.
  - rewrite He. apply String.eqb_eq.
Qed.

Lemma allowed_head_navigate_denied_witness :
  allowed (test_request "cross-site" "navigate" "HEAD") = false.
Proof.
  refine (proj1 (allowed_head_navigate_denied
                   (test_request "cross-site" "navigate" "HEAD") _ _) _);
    vm_compute; reflexivity.
Defined.

(** C7: [allowed] answers on every request, and a header that is absent is
    read as the empty string; a request without a site header is allowed. *)
Theorem allowed_total_fail_open (r : Request) :
  (allowed r = true \/ allowed r = false) /\
  (forall key, header_absent (Header_ r) key -> Header.Get (Header_ r) key = "") /\
  (header_absent (Header_ r) "sec-fetch-site" -> allowed r = true).
Proof.
  split; [destruct (allowed r); auto|]. split.
  - intros key. apply Get_absent.
  - intros Ha. rewrite allowed_decision. apply decision_permissive. left.
    by apply Get_absent.
Qed.

Lemma allowed_total_fail_open_witness :
  allowed (NewRequest "POST" "/" "body") = true /\
  allowed (with_header (NewRequest "DELETE" "/" "") "sec-fetch-mode" "cors") = true.
Proof.
  split.
  - refine (proj2 (proj2 (allowed_total_fail_open (NewRequest "POST" "/" "body"))) _).
    vm_compute. reflexivity.
  - refine (proj2 (proj2 (allowed_total_fail_open
              (with_header (NewRequest "DELETE" "/" "") "sec-fetch-mode" "cors"))) _).
    vm_compute. reflexivity.
Defined.

(** C8: the decision is a function of the site value, the mode value and
    the method: two requests that agree on the three get the same answer,
    whatever else they hold. *)
Theorem allowed_deterministic (r1 r2 : Request) :
  site_of r1 = site_of r2 -> mode_of r1 = mode_of r2 -> Method r1 = Method r2 ->
  allowed r1 = allowed r2.
Proof.
  intros Hs Hm Hg. rewrite !allowed_decision. by rewrite Hs, Hm, Hg.
Qed.

Lemma allowed_deterministic_witness :
  allowed (test_request "cross-site" "navigate" "POST") =
  allowed (with_header
             {| Method := "POST"; URL := "/transfer?to=mallory"; Host := "bank.example";
                Header_ := {[ "Sec-Fetch-Site" := ["cross-site"; "same-origin"];
                              "Sec-Fetch-Mode" := ["navigate"];
                              "Cookie" := ["session=1"] ]};
                Body := "amount=100" |}
             "x-requested-with" "XMLHttpRequest").
Proof.
  apply allowed_deterministic; vm_compute; reflexivity.
Defined.

(** C10: matching is case-sensitive. A site value that is "none",
    "same-site" or "same-origin" up to letter case, and is not that very
    string, misses the first rule: the request is allowed exactly when its
    mode is "navigate" and its method is "GET". *)
Theorem allowed_case_sensitive (r : Request) (t : string) :
  t = "none" \/ t = "same-site" \/ t = "same-origin" ->
  differs_only_in_case (site_of r) t ->
  allowed r = String.eqb (mode_of r) "navigate" && String.eqb (Method r) "GET".
Proof.
  intros Ht [Hne Hlow].
  rewrite allowed_decision. apply decision_cross; intros Hs; rewrite Hs in *;
    destruct Ht as [-> | [-> | ->]]; (discriminate Hlow || by apply Hne).
Qed.

Lemma allowed_case_sensitive_witness :
  allowed (test_request "None" "cors" "GET") = false /\
  allowed (test_request "SAME-ORIGIN" "" "POST") = false /\
  allowed (test_request "Same-Site" "navigate" "GET") = true.
Proof.
  split; [|split].
  - rewrite (allowed_case_sensitive (test_request "None" "cors" "GET") "none").
    + vm_compute. reflexivity.
    + left. reflexivity.
    + split; vm_compute; [discriminate | reflexivity].
  - rewrite (allowed_case_sensitive (test_request "SAME-ORIGIN" "" "POST") "same-origin").
    + vm_compute. reflexivity.
    + right. right. reflexivity.
    + split; vm_compute; [discriminate | reflexivity].
  - rewrite (allowed_case_sensitive (test_request "Same-Site" "navigate" "GET") "same-site").
    + vm_compute. reflexivity.
    + right. left. reflexivity.
    + split; vm_compute; [discriminate | reflexivity].
Defined.

(** The rows of the test table, evaluated. *)
Lemma checkTests_outcomes :
  map row_outcome checkTests =
  [true; true; false; true; true; false; false; true; false; false; false].
Proof. vm_compute. reflexivity. Qed.

(** The rows whose expected outcome is not what [allowed] answers. *)
Lemma checkTests_disagree :
  map tt_name (List.filter (fun t => negb (Bool.eqb (row_outcome t) (tt_want t))) checkTests) =
  ["cors bug missing mode"; "cross origin nested navigate"; "cross origin head navigate"].
Proof. vm_compute. reflexivity. Qed.

(** * Properties of the wrappers *)

Lemma app_singleton_neq {A} (t : list A) (x : A) : t ++ [x] <> t.
Proof.
  intros Heq. apply (f_equal length) in Heq. rewrite length_app in Heq.
  simpl in Heq. lia.
Qed.

(** On the recorder of the tests a rejection reads 403 and the message. *)
Lemma denial_recorder :
  Code (denial NewRecorder) = 403%Z /\
  RecBody (denial NewRecorder) = "Invalid resource access" +:+ newline.
Proof. split; reflexivity. Qed.

Lemma ProtectHandler_denied {W} `{ResponseWriter W} {E}
    (h : Handler E) (w : W) (r : Request) (e : E) :
  allowed r = false -> ServeHTTP (ProtectHandler h) w r e = (denial w, e).
Proof. intros Hd. simpl. rewrite Hd. reflexivity. Qed.

Lemma ProtectHandler_allowed {W} `{ResponseWriter W} {E}
    (h : Handler E) (w : W) (r : Request) (e : E) :
  allowed r = true -> ServeHTTP (ProtectHandler h) w r e = ServeHTTP h w r e.
Proof. intros Ha. simpl. rewrite Ha. reflexivity. Qed.

(** C4: the enforcing wrapper writes status 403 and the fixed message with
    its newline, and returns without a call to the wrapped handler, exactly
    when the predicate denies the request; what it leaves on a denial is the
    same for every wrapped handler. *)
Theorem ProtectHandler_deny_iff {W} `{ResponseWriter W} {E}
    (h : Handler E) (w : W) (r : Request) (e : E) (t : list Call) :
  (allowed r = false <->
   ServeHTTP (ProtectHandler (traced_handler h)) w r (e, t) =
   (Write ("Invalid resource access" +:+ newline) (WriteHeader StatusForbidden w), (e, t))) /\
  (allowed r = false ->
   forall (E' : Type) (h' : Handler E') (e' : E'),
     ServeHTTP (ProtectHandler h') w r e' =
     (Write ("Invalid resource access" +:+ newline) (WriteHeader StatusForbidden w), e')).
Proof.
  split.
  - split.
    + intros Hd. by apply ProtectHandler_denied.
    + intros Heq. destruct (allowed r) eqn:Ha; [|reflexivity].
      rewrite ProtectHandler_allowed in Heq by assumption. simpl in Heq.
      destruct (ServeHTTP h w r e) as [w' e'1]. inversion Heq as [[Hw He Ht]].
      by apply app_singleton_neq in Ht.
  - intros Hd E' h' e'. by apply ProtectHandler_denied.
Qed.

Lemma ProtectHandler_deny_iff_witness :
  let r := test_request "cross-site" "cors" "POST" in
  let out := ServeHTTP (ProtectHandler (traced_handler data_handler)) NewRecorder r (tt, []) in
  Code (fst out) = 403%Z /\
  RecBody (fst out) = "Invalid resource access" +:+ newline /\
  snd out = (tt, []).
Proof.
  intros r out. subst out.
  rewrite (proj1 (proj1 (ProtectHandler_deny_iff data_handler NewRecorder r tt []))).
  - repeat split; reflexivity.
  - vm_compute. reflexivity.
Defined.

(** C9: on a request the predicate allows, the enforcing wrapper is the
    wrapped handler: one call to it, on the writer and the request as they
    came in, and nothing written by the wrapper. *)
Theorem ProtectHandler_allow_passthrough {W} `{ResponseWriter W} {E}
    (h : Handler E) (w : W) (r : Request) (e : E) (t : list Call) :
  allowed r = true ->
  ServeHTTP (ProtectHandler h) w r e = ServeHTTP h w r e /\
  ServeHTTP (ProtectHandler (traced_handler h)) w r (e, t) =
  (fst (ServeHTTP h w r e), (snd (ServeHTTP h w r e), t ++ [CallServeHTTP r])).
Proof.
  intros Ha. split; [by apply ProtectHandler_allowed|].
  rewrite ProtectHandler_allowed by assumption. simpl.
  by destruct (ServeHTTP h w r e).
Qed.

Lemma ProtectHandler_allow_passthrough_witness :
  let r := test_request "cross-site" "navigate" "GET" in
  let out := ServeHTTP (ProtectHandler (traced_handler data_handler)) NewRecorder r (tt, []) in
  Code (fst out) = 200%Z /\ RecBody (fst out) = "User Data" /\
  snd out = (tt, [CallServeHTTP r]).
Proof.
  intros r out. subst out.
  rewrite (proj2 (ProtectHandler_allow_passthrough data_handler NewRecorder r tt [] eq_refl)).
  repeat split; reflexivity.
Defined.

(** C5: the log-only wrapper calls the wrapped handler once, on the writer
    and the request as they came in, so the response is the wrapped
    handler's; before that it calls the logger once when the predicate
    denies the request, and not at all when it allows it. *)
Theorem ProtectHandlerLogOnly_spec {W} `{ResponseWriter W} {E}
    (h : Handler E) (rl : RequestLogger E) (w : W) (r : Request) (e : E)
    (t : list Call) :
  let e1 := if allowed r then e else LogRequest rl r e in
  let new := (if allowed r then [] else [CallLogRequest r]) ++ [CallServeHTTP r] in
  ServeHTTP (ProtectHandlerLogOnly h rl) w r e = ServeHTTP h w r e1 /\
  ServeHTTP (ProtectHandlerLogOnly (traced_handler h) (traced_logger rl)) w r (e, t) =
  (fst (ServeHTTP h w r e1), (snd (ServeHTTP h w r e1), t ++ new)) /\
  count_calls is_log new = (if allowed r then 0 else 1) /\
  count_calls is_serve new = 1.
Proof.
  simpl. destruct (allowed r); simpl.
  - repeat split; try reflexivity. by destruct (ServeHTTP h w r e).
  - repeat split; try reflexivity.
    destruct (ServeHTTP h w r (LogRequest rl r e)). by rewrite <- app_assoc.
Qed.

(** With a logger that shares nothing with the wrapped handler, the
    response of the log-only wrapper does not depend on the decision. *)
Lemma ProtectHandlerLogOnly_response {W} `{ResponseWriter W} {E1 E2}
    (h : Handler E1) (rl : RequestLogger E2) (w : W) (r : Request) (e1 : E1) (e2 : E2) :
  ServeHTTP (ProtectHandlerLogOnly (handler_on_fst h) (logger_on_snd rl)) w r (e1, e2) =
  (fst (ServeHTTP h w r e1),
   (snd (ServeHTTP h w r e1), if allowed r then e2 else LogRequest rl r e2)).
Proof.
  simpl. destruct (allowed r); simpl; by destruct (ServeHTTP h w r e1).
Qed.

(** The log-only test of the package on a denied and on an allowed row. *)
Example LogOnly_denied_row :
  let r := test_request "cross-site" "cors" "POST" in
  let out := ServeHTTP (ProtectHandlerLogOnly (handler_on_fst data_handler)
                          (logger_on_snd testRequestLogger)) NewRecorder r (tt, []) in
  Code (fst out) = 200%Z /\ RecBody (fst out) = "User Data" /\ snd (snd out) = [r].
Proof. vm_compute. repeat split; reflexivity. Qed.

Example LogOnly_allowed_row :
  let r := test_request "same-origin" "unrecognized" "POST" in
  let out := ServeHTTP (ProtectHandlerLogOnly (handler_on_fst data_handler)
                          (logger_on_snd testRequestLogger)) NewRecorder r (tt, []) in
  Code (fst out) = 200%Z /\ RecBody (fst out) = "User Data" /\ snd (snd out) = [].
Proof. vm_compute. repeat split; reflexivity. Qed.

(** * How the wrappers compose *)

Lemma ProtectHandlerLogOnly_unfold {W} `{ResponseWriter W} {E}
    (h : Handler E) (rl : RequestLogger E) (w : W) (r : Request) (e : E) :
  ServeHTTP (ProtectHandlerLogOnly h rl) w r e =
  ServeHTTP h w r (if allowed r then e else LogRequest rl r e).
Proof. simpl. by destruct (allowed r). Qed.

(** X1: wrapping twice with the enforcing wrapper is wrapping once. *)
Theorem ProtectHandler_idempotent {W} `{ResponseWriter W} {E}
    (h : Handler E) (w : W) (r : Request) (e : E) :
  ServeHTTP (ProtectHandler (ProtectHandler h)) w r e =
  ServeHTTP (ProtectHandler h) w r e.
Proof.
  destruct (allowed r) eqn:Ha.
  - by rewrite !ProtectHandler_allowed.
  - by rewrite !ProtectHandler_denied.
Qed.

(** X2: a log-only wrapper placed behind the enforcing wrapper never
    logs: the pair behaves as the enforcing wrapper alone, and a logger
    that records its calls records none. *)
Theorem ProtectHandler_hides_logger {W} `{ResponseWriter W} {E}
    (h : Handler E) (rl : RequestLogger E) (w : W) (r : Request) (e : E)
    (t : list Call) :
  ServeHTTP (ProtectHandler (ProtectHandlerLogOnly h rl)) w r e =
  ServeHTTP (ProtectHandler h) w r e /\
  count_calls is_log
    (snd (snd (ServeHTTP (ProtectHandler
                 (ProtectHandlerLogOnly (traced_handler h) (traced_logger rl)))
                 w r (e, t)))) =
  count_calls is_log t.
Proof.
  destruct (allowed r) eqn:Ha.
  - rewrite !ProtectHandler_allowed, !ProtectHandlerLogOnly_unfold by assumption.
    rewrite Ha. split; [reflexivity|]. simpl.
    destruct (ServeHTTP h w r e). simpl. unfold count_calls.
    rewrite List.filter_app, length_app. simpl. lia.
  - rewrite !ProtectHandler_denied by assumption. by split.
Qed.



(** * Header names and values as the predicate sees them *)

Lemma to_lower_idem (c : ascii) :
  textproto.to_lower (textproto.to_lower c) = textproto.to_lower c.
Proof. destruct c as [[] [] [] [] [] [] [] []]; reflexivity. Qed.

Lemma to_upper_lower (c : ascii) :
  textproto.to_upper (textproto.to_lower c) = textproto.to_upper c.
Proof. destruct c as [[] [] [] [] [] [] [] []]; reflexivity. Qed.

Lemma valid_to_lower (c : ascii) :
  textproto.validHeaderFieldByte (textproto.to_lower c) =
  textproto.validHeaderFieldByte c.
Proof. destruct c as [[] [] [] [] [] [] [] []]; reflexivity. Qed.

Lemma all_valid_lower (s : string) :
  textproto.all_valid (lower_string s) = textproto.all_valid s.
Proof.
  induction s as [|c s IH]; [reflexivity|].
  simpl. by rewrite valid_to_lower, IH.
Qed.

Lemma canonical_from_lower (s : string) :
  forall upper, textproto.canonical_from upper (lower_string s) =
                textproto.canonical_from upper s.
Proof.
  induction s as [|c s IH]; intros upper; [reflexivity|].
  simpl. rewrite to_upper_lower, to_lower_idem. by rewrite IH.
Qed.

(** The canonical form of a token key does not see the case of its letters. *)
Lemma Canonical_case_fold (k1 k2 : string) :
  textproto.all_valid k1 = true -> lower_string k1 = lower_string k2 ->
  textproto.CanonicalMIMEHeaderKey k1 = textproto.CanonicalMIMEHeaderKey k2.
Proof.
  intros Hv Hl. unfold textproto.CanonicalMIMEHeaderKey.
  assert (Hv2 : textproto.all_valid k2 = true).
  { by rewrite <- all_valid_lower, <- Hl, all_valid_lower. }
  rewrite Hv, Hv2.
  by rewrite <- (canonical_from_lower k1), <- (canonical_from_lower k2), Hl.
Qed.

(** X5: header names are matched without regard to letter case. A value
    stored with [Set] under a token name is what [Get] returns under any
    name equal to it up to case; so the predicate reads the site value
    stored under any spelling of "sec-fetch-site". *)
Theorem header_name_case_insensitive (h : HeaderMap) (k1 k2 v : string) :
  textproto.all_valid k1 = true -> lower_string k1 = lower_string k2 ->
  Header.Get (Header.Set_ h k1 v) k2 = v /\
  (lower_string k1 = "sec-fetch-site" ->
   forall r, site_of (with_header r k1 v) = v).
Proof.
  intros Hv Hl. split.
  - unfold Header.Get, Header.Set_.
    rewrite (Canonical_case_fold k1 k2 Hv Hl). by rewrite lookup_insert_eq.
  - intros Hs r. unfold site_of, with_header, Header.Get, Header.Set_. simpl.
    rewrite (Canonical_case_fold k1 "sec-fetch-site" Hv Hs).
    by rewrite lookup_insert_eq.
Qed.

Lemma header_name_case_insensitive_witness :
  Header.Get (Header.Set_ ∅ "SEC-Fetch-site" "cross-site") "sec-fetch-site" = "cross-site" /\
  allowed (with_header (NewRequest "POST" "/" "") "SEC-FETCH-SITE" "cross-site") = false.
Proof.
  split.
  - refine (proj1 (header_name_case_insensitive ∅ "SEC-Fetch-site" "sec-fetch-site"
                     "cross-site" _ _)); vm_compute; reflexivity.
  - rewrite allowed_decision.
    rewrite (proj2 (header_name_case_insensitive ∅ "SEC-FETCH-SITE" "sec-fetch-site"
                      "cross-site" eq_refl eq_refl) eq_refl).
    vm_compute. reflexivity.
Defined.

(** A name that is not a token is stored and looked up as it is written:
    there the case of the letters counts. *)
Example header_name_not_token :
  Header.Get (Header.Set_ ∅ "sec fetch site" "cross-site") "Sec Fetch Site" = "".
Proof. vm_compute. reflexivity. Qed.


Lemma mode_of_set_site (r : Request) (v : string) :
  mode_of (with_header r "sec-fetch-site" v) = mode_of r.
Proof.
  unfold mode_of, with_header, Header.Get, Header.Set_. simpl.
  rewrite canon_site, canon_mode. by rewrite lookup_insert_ne.
Qed.

Lemma site_of_set_site (r : Request) (v : string) :
  site_of (with_header r "sec-fetch-site" v) = v.
Proof. unfold site_of, with_header. simpl. apply Get_Set_eq. Qed.


(** X6: of a header sent several times the predicate reads the first
    value only: the decision is the one of the request that carries that
    value alone. *)
Theorem allowed_first_value (r : Request) (v : string) (vs : list string) :
  Header_ r !! "Sec-Fetch-Site" = Some (v :: vs) ->
  site_of r = v /\ allowed r = allowed (with_header r "sec-fetch-site" v).
Proof.
  intros Hl.
  assert (Hs : site_of r = v).
  { unfold site_of, Header.Get. rewrite canon_site, Hl. reflexivity. }
  split; [exact Hs|].
  rewrite !allowed_decision, site_of_set_site, mode_of_set_site, Hs.
  reflexivity.
Qed.

Lemma allowed_first_value_witness :
  allowed {| Method := "POST"; URL := "/"; Host := "example.com";
             Header_ := {[ "Sec-Fetch-Site" := ["same-origin"; "cross-site"] ]};
             Body := "" |} = true.
Proof.
  set (r := {| Method := "POST"; URL := "/"; Host := "example.com";
               Header_ := {[ "Sec-Fetch-Site" := ["same-origin"; "cross-site"] ]};
               Body := "" |}).
  assert (Hl : Header_ r !! "Sec-Fetch-Site" = Some ["same-origin"; "cross-site"])
    by (vm_compute; reflexivity).
  rewrite (proj2 (allowed_first_value r "same-origin" ["cross-site"] Hl)).
  vm_compute. reflexivity.
Defined.


(** * The wrappers on the recorder, and the package's tests *)



Lemma data_not_in_denial :
  Contains ("Invalid resource access" +:+ newline) data = false.
Proof. vm_compute. reflexivity. Qed.



(** One subtest of [TestProtectHandlerLogOnly], started with the logger
    holding [rs]: status and body are never reported, and the deferred
    [reset] leaves the logger empty. *)
Lemma LogOnly_subtest_eq (t : checkTest) (rs : list Request) :
  LogOnly_subtest t rs =
  if textproto.all_valid (tt_method t)
  then Some (verdict (Nat.eqb (length rs) 0 && row_outcome t) (tt_want t), [])
  else None.
Proof.
  unfold LogOnly_subtest, subtest_request, row_outcome.
  destruct (textproto.all_valid (tt_method t)); [|reflexivity].
  remember (test_request (tt_site t) (tt_mode t) (tt_method t)) as r eqn:Hr.
  clear Hr. rewrite ProtectHandlerLogOnly_response. simpl.
  destruct (allowed r); simpl.
  - by rewrite andb_true_r.
  - rewrite andb_false_r, length_app. simpl.
    by replace (length rs + 1) with (S (length rs)) by lia.
Qed.


(** The two tests on the table of the package: three rows fail. *)
Example TestProtectHandler_checkTests :
  TestProtectHandler checkTests =
  Some [ ("no headers", []); ("ua initiated", []);
         ("cors bug missing mode", [Verdict false true]);
         ("same site", []); ("same origin", []);
         ("cross origin nested navigate", [Verdict false true]);
         ("cross origin head navigate", [Verdict false true]);
         ("cross origin navigate", []); ("cross origin form submission", []);
         ("cross origin no cors", []); ("cross origin cors", []) ].
Proof. vm_compute. reflexivity. Qed.

Example TestProtectHandlerLogOnly_checkTests :
  TestProtectHandlerLogOnly checkTests =
  option_map (fun l => (l, [])) (TestProtectHandler checkTests).
Proof. vm_compute. reflexivity. Qed.

(** X11: a subtest of [TestProtectHandlerLogOnly] that finds a request
    left in the logger reads the logger as having been called, whatever
    its own request is: without the [reset] between subtests a row that
    expects an allowed request would fail. *)
Theorem LogOnly_subtest_stale_log (t : checkTest) (rs : list Request) :
  textproto.all_valid (tt_method t) = true -> rs <> [] ->
  LogOnly_subtest t rs = Some (verdict false (tt_want t), []).
Proof.
  intros Hv Hrs. rewrite LogOnly_subtest_eq, Hv.
  destruct rs as [|r0 rs]; [by destruct Hrs|]. reflexivity.
Qed.

Lemma LogOnly_subtest_stale_log_witness :
  LogOnly_subtest (mkCheckTest "same site" "same-site" "websocket" "HEAD" true)
    [test_request "cross-site" "cors" "POST"] =
  Some ([Verdict false true], []).
Proof.
  apply (LogOnly_subtest_stale_log
           (mkCheckTest "same site" "same-site" "websocket" "HEAD" true)
           [test_request "cross-site" "cors" "POST"]).
  - vm_compute. reflexivity.
  - discriminate.
Defined.

